(** * BooksFlowAI backend: the application shell of [backend/main.py]

    The module builds a FastAPI application, computes the list of allowed
    origins from the process environment, installs the CORS middleware with
    that list and registers one path operation, [GET /health].

    The embedding follows the module statement by statement.  The process
    environment is a finite map from names to values, the one list object
    the module allocates lives in a small object store (so that the global
    [origins] and the middleware's keyword argument are two references to
    the same object), and handlers run in a state-and-exception monad over
    the program state. *)

From stdpp Require Import base option list gmap strings.

Open Scope string_scope.
Open Scope list_scope.
Open Scope Z_scope.

(** ** Python values returned by handlers *)

#[warnings="-register-all"]
Inductive pyval : Type :=
| PStr (s : string)
| PDict (items : list (string * pyval)).

(** ** The object store

    A location is an index in the store; an object is a Python list of
    strings.  Allocation appends; nothing in the module updates or frees. *)

Definition loc := nat.
Definition store := list (list string).

Definition alloc (h : store) (obj : list string) : loc * store :=
  (List.length h, h ++ [obj]).

(** ** The process environment: [os.environ] and [os.getenv] *)

Definition getenv (environ : gmap string string) (key dflt : string) : string :=
  match environ !! key with
  | Some v => v
  | None => dflt
  end.

(** ** The application object *)

Inductive middleware_class := CORSMiddleware.

(** The keyword arguments the module passes to [add_middleware]; the
    middleware's other parameters are not passed and keep their library
    defaults.  [allow_origins] is a reference: the call passes the list
    object itself. *)
Record cors_options := {
  allow_origins : loc;
  allow_credentials : bool;
  allow_methods : list string;
  allow_headers : list string
}.

Record middleware := {
  mw_class : middleware_class;
  mw_options : cors_options
}.

(** Function objects of the module. *)
Inductive endpoint := health_fn.

(** A path operation registered through [@app.get]: [status_code] is the
    decorator's optional argument. *)
Record route := {
  route_path : string;
  route_methods : list string;
  route_endpoint : endpoint;
  status_code : option Z
}.

Record FastAPI := {
  title : string;
  version : string;
  user_middleware : list middleware;
  routes : list route
}.

(** [FastAPI(title=..., version=...)].  [routes] holds the path operations
    the program registers; the documentation routes the framework mounts on
    its own are not part of the program. *)
Definition new_FastAPI (t v : string) : FastAPI :=
  {| title := t; version := v; user_middleware := []; routes := [] |}.

(** [app.add_middleware(cls, **options)]: the newest middleware goes first. *)
Definition add_middleware (a : FastAPI) (c : middleware_class)
    (o : cors_options) : FastAPI :=
  {| title := title a; version := version a;
     user_middleware := {| mw_class := c; mw_options := o |} :: user_middleware a;
     routes := routes a |}.

(** [@app.get(path)] applied to a function: no [status_code] is given. *)
Definition get (a : FastAPI) (p : string) (f : endpoint) : FastAPI :=
  {| title := title a; version := version a;
     user_middleware := user_middleware a;
     routes := routes a ++
       [{| route_path := p; route_methods := ["GET"];
           route_endpoint := f; status_code := None |}] |}.

(** ** Program state: the store and the module's two globals *)

Record state := {
  heap : store;
  app : FastAPI;
  origins : loc
}.

(** ** Handlers: state and exceptions *)

Inductive outcome (A : Type) : Type :=
| Returned (a : A)
| Raised (exc : string).
Arguments Returned {A} a.
Arguments Raised {A} exc.

Definition M (A : Type) : Type := state -> outcome A * state.

Definition ret {A} (a : A) : M A := fun s => (Returned a, s).

Definition bind {A B} (m : M A) (k : A -> M B) : M B :=
  fun s =>
    match m s with
    | (Returned a, s') => k a s'
    | (Raised e, s') => (Raised e, s')
    end.

(** [def health(): return {"status": "ok"}] *)
Definition health : M pyval :=
  ret (PDict [("status", PStr "ok")]).

Definition call (f : endpoint) : M pyval :=
  match f with
  | health_fn => health
  end.

(** ** Module execution *)

Definition APP_URL_VAR : string := "NEXT_PUBLIC_APP_URL".
Definition DEFAULT_ORIGIN : string := "http://localhost:3000".

Definition main (environ : gmap string string) : state :=
  let app0 := new_FastAPI "BooksFlowAI Backend" "0.1.0" in
  let '(origins0, h) := alloc [] [getenv environ APP_URL_VAR DEFAULT_ORIGIN] in
  let app1 :=
    add_middleware app0 CORSMiddleware
      {| allow_origins := origins0;
         allow_credentials := true;
         allow_methods := ["*"];
         allow_headers := ["*"] |} in
  let app2 := get app1 "/health" health_fn in
  {| heap := h; app := app2; origins := origins0 |}.

(** The contents of the list the global [origins] refers to. *)
Definition allowed_origins (s : state) : option (list string) :=
  heap s !! origins s.

(** The contents of the list a middleware's [allow_origins] refers to. *)
Definition policy_origins (s : state) (m : middleware) : option (list string) :=
  heap s !! allow_origins (mw_options m).

(** ** Serving requests *)

(** A request as the application receives it from the server: [req_path]
    is the path of the request target after percent-decoding, without the
    query string. *)
Record request := {
  req_method : string;
  req_path : string;
  req_query : list (string * string);
  req_headers : list (string * string)
}.

(** What the program contributes to a response.  [Deferred]: no path
    operation of the program matches, the framework answers on its own.
    [ServerError]: the handler raised. *)
Inductive reply :=
| Answer (status : Z) (body : pyval)
| ServerError
| Deferred.

(** The router compiles a route path without parameters to the pattern
    [^path$] and applies it to the request path with Python's [re.match]:
    [$] accepts the end of the string and the position before one final
    newline. *)
Definition newline : string := String (Ascii.ascii_of_nat 10) EmptyString.

Definition path_matches (pattern path : string) : bool :=
  bool_decide (path = pattern) || bool_decide (path = pattern +:+ newline).

Definition matches (rq : request) (r : route) : bool :=
  path_matches (route_path r) (req_path rq)
  && bool_decide (req_method rq ∈ route_methods r).

(** A path operation without [status_code] answers 200 with the returned
    value as its JSON body.  [health] declares no parameters, so nothing of
    the request is handed to it. *)
Definition handle (rq : request) (s : state) : reply * state :=
  match find (matches rq) (routes (app s)) with
  | None => (Deferred, s)
  | Some r =>
      match call (route_endpoint r) s with
      | (Returned v, s') => (Answer (default 200 (status_code r)) v, s')
      | (Raised _, s') => (ServerError, s')
      end
  end.

Fixpoint serve (rqs : list request) (s : state) : list reply * state :=
  match rqs with
  | [] => ([], s)
  | rq :: rest =>
      let '(rp, s') := handle rq s in
      let '(rps, s'') := serve rest s' in
      (rp :: rps, s'')
  end.

Definition health_request (q h : list (string * string)) : request :=
  {| req_method := "GET"; req_path := "/health";
     req_query := q; req_headers := h |}.

Definition health_body : pyval := PDict [("status", PStr "ok")].

(** * Properties *)

Example main_unset :
  allowed_origins (main ∅) = Some ["http://localhost:3000"].
Proof. reflexivity. Qed.

Example main_set :
  allowed_origins (main {[ "NEXT_PUBLIC_APP_URL" := "https://books.example" ]})
  = Some ["https://books.example"].
Proof. vm_compute. reflexivity. Qed.

Example health_once :
  fst (handle (health_request [("x", "1")] [("Origin", "http://evil.example")])
         (main ∅))
  = Answer 200 health_body.
Proof. vm_compute. reflexivity. Qed.

Example health_trailing_newline :
  fst (handle {| req_method := "GET"; req_path := "/health" +:+ newline;
                 req_query := []; req_headers := [] |} (main ∅))
  = Answer 200 health_body.
Proof. vm_compute. reflexivity. Qed.

Example post_health_deferred :
  fst (handle {| req_method := "POST"; req_path := "/health";
                 req_query := []; req_headers := [] |} (main ∅))
  = Deferred.
Proof. vm_compute. reflexivity. Qed.

Example other_path_deferred :
  fst (handle {| req_method := "GET"; req_path := "/Health";
                 req_query := []; req_headers := [] |} (main ∅))
  = Deferred.
Proof. vm_compute. reflexivity. Qed.

(** ** Reading the environment *)

Section Getenv.
Variable environ : gmap string string.
Variables key dflt : string.

Lemma getenv_unset : environ !! key = None -> getenv environ key dflt = dflt.
Proof. intros E. unfold getenv. now rewrite E. Qed.

Lemma getenv_set v : environ !! key = Some v -> getenv environ key dflt = v.
Proof. intros E. unfold getenv. now rewrite E. Qed.

End Getenv.

(** ** What module execution leaves behind *)

Lemma allowed_origins_main environ :
  allowed_origins (main environ)
  = Some [getenv environ APP_URL_VAR DEFAULT_ORIGIN].
Proof. reflexivity. Qed.

Lemma routes_main environ :
  routes (app (main environ))
  = [{| route_path := "/health"; route_methods := ["GET"];
        route_endpoint := health_fn; status_code := None |}].
Proof. reflexivity. Qed.

(** ** Handlers leave the program state alone *)

Lemma call_returns f s : call f s = (Returned health_body, s).
Proof. destruct f. reflexivity. Qed.

Lemma handle_state rq s : snd (handle rq s) = s.
Proof.
  unfold handle.
  destruct (find (matches rq) (routes (app s))) as [r|]; [|reflexivity].
  now rewrite call_returns.
Qed.

Lemma serve_state rqs : forall s, snd (serve rqs s) = s.
Proof.
  induction rqs as [|rq rest IH]; intros s; [reflexivity|].
  cbn [serve].
  pose proof (handle_state rq s) as Hh.
  destruct (handle rq s) as [rp s1]. cbn in Hh. subst s1.
  specialize (IH s).
  destruct (serve rest s) as [rps s2]. cbn in IH. now subst s2.
Qed.

Lemma matches_health q h :
  matches (health_request q h)
    {| route_path := "/health"; route_methods := ["GET"];
       route_endpoint := health_fn; status_code := None |} = true.
Proof. reflexivity. Qed.

Lemma handle_health environ q h :
  handle (health_request q h) (main environ)
  = (Answer 200 health_body, main environ).
Proof.
  unfold handle. rewrite routes_main.
  cbn [find]. rewrite matches_health. reflexivity.
Qed.

(** Every route of the running program is a path operation without a
    status code of its own. *)
Lemma routes_status environ r :
  In r (routes (app (main environ))) -> status_code r = None.
Proof.
  rewrite routes_main. intros [<-|[]]. reflexivity.
Qed.

(** The program state of a run: module execution under [environ], then the
    requests [rqs] served in order. *)
Definition after (environ : gmap string string) (rqs : list request) : state :=
  snd (serve rqs (main environ)).

Lemma after_main environ rqs : after environ rqs = main environ.
Proof. apply serve_state. Qed.

(** * The allowed-origin list *)

(** C1, as the code has it: with NEXT_PUBLIC_APP_URL unset the
    allowed-origin list is ["http://localhost:3000"]; with the variable set
    to the empty string the list is [""], the fallback is not used. *)
Theorem origins_unset_or_empty (environ : gmap string string) :
  (environ !! "NEXT_PUBLIC_APP_URL" = None ->
     allowed_origins (main environ) = Some ["http://localhost:3000"])
  /\ (environ !! "NEXT_PUBLIC_APP_URL" = Some "" ->
     allowed_origins (main environ) = Some [""]).
Proof.
  rewrite allowed_origins_main. split; intros E.
  - now rewrite (getenv_unset _ _ _ E).
  - now rewrite (getenv_set _ _ _ _ E).
Qed.

Lemma origins_unset_or_empty_witness :
  allowed_origins (main ∅) = Some ["http://localhost:3000"]
  /\ allowed_origins (main {[ "NEXT_PUBLIC_APP_URL" := "" ]}) = Some [""].
Proof.
  split.
  - apply (proj1 (origins_unset_or_empty ∅)). reflexivity.
  - apply (proj2 (origins_unset_or_empty {[ "NEXT_PUBLIC_APP_URL" := "" ]})).
    vm_compute. reflexivity.
Defined.

(** C1 as stated fails: with NEXT_PUBLIC_APP_URL set to the empty string the
    allowed-origin list is [""] and not ["http://localhost:3000"]. *)
Lemma origins_empty_value_not_default :
  ({[ "NEXT_PUBLIC_APP_URL" := "" ]} : gmap string string)
    !! "NEXT_PUBLIC_APP_URL" = Some ""
  /\ allowed_origins (main {[ "NEXT_PUBLIC_APP_URL" := "" ]}) = Some [""]
  /\ allowed_origins (main {[ "NEXT_PUBLIC_APP_URL" := "" ]})
     <> Some ["http://localhost:3000"].
Proof.
  split; [|split].
  - vm_compute. reflexivity.
  - vm_compute. reflexivity.
  - vm_compute. discriminate.
Qed.

(** C3: for every non-empty string V, when NEXT_PUBLIC_APP_URL is set to V
    the allowed-origin list is the one-element list [V]. *)
Theorem origins_set_nonempty (environ : gmap string string) (V : string) :
  V <> "" ->
  environ !! "NEXT_PUBLIC_APP_URL" = Some V ->
  allowed_origins (main environ) = Some [V].
Proof.
  intros _ E. rewrite allowed_origins_main.
  now rewrite (getenv_set _ _ _ _ E).
Qed.

Lemma origins_set_nonempty_witness :
  allowed_origins (main {[ "NEXT_PUBLIC_APP_URL" := "https://books.example" ]})
  = Some ["https://books.example"].
Proof.
  apply (origins_set_nonempty
           {[ "NEXT_PUBLIC_APP_URL" := "https://books.example" ]}
           "https://books.example").
  - discriminate.
  - vm_compute. reflexivity.
Defined.

(** C10: whatever NEXT_PUBLIC_APP_URL holds, set or unset, the
    allowed-origin list built at startup has exactly one element. *)
Theorem origins_singleton (environ : gmap string string) :
  exists l, allowed_origins (main environ) = Some l /\ List.length l = 1%nat.
Proof.
  rewrite allowed_origins_main. eexists. split; reflexivity.
Qed.

(** C5: whatever NEXT_PUBLIC_APP_URL holds, the allowed-origin list built at
    startup is non-empty, and after any sequence of requests the store, the
    global [origins] and hence the list are what startup left. *)
Theorem origins_nonempty_and_stable (environ : gmap string string)
    (rqs : list request) :
  (exists l, allowed_origins (main environ) = Some l /\ l <> [])
  /\ heap (after environ rqs) = heap (main environ)
  /\ origins (after environ rqs) = origins (main environ)
  /\ allowed_origins (after environ rqs) = allowed_origins (main environ).
Proof.
  split.
  - rewrite allowed_origins_main. eexists. split; [reflexivity|discriminate].
  - now rewrite after_main.
Qed.

(** * The cross-origin policy *)

(** C4: the one middleware installed at startup is the CORS middleware, with
    allow_credentials true, allow_methods ["*"] and allow_headers ["*"]; its
    allow_origins is the very list object [origins] refers to, and that list
    is the computed one: the single value [os.getenv] gave for
    NEXT_PUBLIC_APP_URL with default "http://localhost:3000". *)
Theorem cors_policy_installed (environ : gmap string string) :
  user_middleware (app (main environ))
  = [{| mw_class := CORSMiddleware;
        mw_options := {| allow_origins := origins (main environ);
                         allow_credentials := true;
                         allow_methods := ["*"];
                         allow_headers := ["*"] |} |}]
  /\ allowed_origins (main environ)
     = Some [getenv environ "NEXT_PUBLIC_APP_URL" "http://localhost:3000"]
  /\ Forall (fun m =>
               policy_origins (main environ) m
               = Some [getenv environ "NEXT_PUBLIC_APP_URL"
                         "http://localhost:3000"]
               /\ policy_origins (main environ) m
                  = allowed_origins (main environ))
       (user_middleware (app (main environ))).
Proof.
  split; [reflexivity|].
  split; [apply allowed_origins_main|].
  change (user_middleware (app (main environ)))
    with [{| mw_class := CORSMiddleware;
             mw_options := {| allow_origins := origins (main environ);
                              allow_credentials := true;
                              allow_methods := ["*"];
                              allow_headers := ["*"] |} |}].
  constructor; [|constructor].
  unfold policy_origins. cbn [mw_options allow_origins].
  fold (allowed_origins (main environ)).
  split; [apply allowed_origins_main|reflexivity].
Qed.

(** * The health check *)

Lemma handle_health_after environ rqs q h :
  handle (health_request q h) (after environ rqs)
  = (Answer 200 health_body, after environ rqs).
Proof. rewrite after_main. apply handle_health. Qed.

(** What any request gets from the running program: the health answer, or
    nothing of the program's own. *)
Lemma handle_cases environ rq :
  fst (handle rq (main environ)) = Answer 200 health_body
  \/ fst (handle rq (main environ)) = Deferred.
Proof.
  unfold handle. rewrite routes_main. cbn [find].
  destruct (matches rq _); [left|right]; reflexivity.
Qed.

(** C2: GET /health answers status 200 with body {"status": "ok"}, whatever
    NEXT_PUBLIC_APP_URL holds, whatever query parameters and headers the
    request carries, and whatever requests were served before. *)
Theorem health_get_ok (environ : gmap string string) (rqs : list request)
    (query headers : list (string * string)) :
  fst (handle {| req_method := "GET"; req_path := "/health";
                 req_query := query; req_headers := headers |}
         (after environ rqs))
  = Answer 200 (PDict [("status", PStr "ok")]).
Proof.
  change (fst (handle (health_request query headers) (after environ rqs))
          = Answer 200 health_body).
  now rewrite handle_health_after.
Qed.

(** C6: two calls of the health handler, anywhere in a sequence of requests,
    return the same response, and each leaves the program state as it found
    it; the same holds of the function [health] in any state at all. *)
Theorem health_idempotent_pure (environ : gmap string string)
    (before between : list request) (q1 h1 q2 h2 : list (string * string))
    (s s' : state) :
  fst (handle (health_request q1 h1) (after environ before))
  = fst (handle (health_request q2 h2)
           (snd (serve between
                   (snd (handle (health_request q1 h1)
                           (after environ before))))))
  /\ snd (handle (health_request q1 h1) (after environ before))
     = after environ before
  /\ fst (health s) = fst (health s')
  /\ snd (health s) = s.
Proof.
  rewrite (handle_state (health_request q1 h1)), serve_state.
  rewrite !handle_health_after.
  repeat split; reflexivity.
Qed.

(** C7: the health response does not depend on the configuration: two runs
    under any two environments, each after any requests, answer GET /health
    alike. *)
Theorem health_independent_of_environment
    (environ1 environ2 : gmap string string) (rqs1 rqs2 : list request)
    (q1 h1 q2 h2 : list (string * string)) :
  fst (handle (health_request q1 h1) (after environ1 rqs1))
  = fst (handle (health_request q2 h2) (after environ2 rqs2)).
Proof. now rewrite !handle_health_after. Qed.

(** C8: the health handler has no failure path: in every state the function
    returns its dictionary and raises nothing, and every request the running
    program answers itself is answered with status 200, never with the
    error reply. *)
Theorem health_never_fails (environ : gmap string string)
    (rqs : list request) (rq : request) (s : state) :
  health s = (Returned (PDict [("status", PStr "ok")]), s)
  /\ fst (handle rq (after environ rqs)) <> ServerError
  /\ (fst (handle rq (after environ rqs))
        = Answer 200 (PDict [("status", PStr "ok")])
      \/ fst (handle rq (after environ rqs)) = Deferred).
Proof.
  rewrite after_main.
  split; [reflexivity|].
  destruct (handle_cases environ rq) as [E|E]; rewrite E;
    (split; [discriminate|]); [now left|now right].
Qed.

(** * Further properties of the module *)

(** ** Which part of the environment the module reads *)

(** Module execution reads NEXT_PUBLIC_APP_URL and nothing else: two
    environments that agree on that variable leave the same program state,
    whatever else they hold. *)
Theorem main_reads_only_app_url (environ1 environ2 : gmap string string) :
  environ1 !! "NEXT_PUBLIC_APP_URL" = environ2 !! "NEXT_PUBLIC_APP_URL" ->
  main environ1 = main environ2.
Proof.
  intros E. unfold main, getenv, APP_URL_VAR. now rewrite E.
Qed.

Lemma main_reads_only_app_url_witness :
  main {[ "DATABASE_URL" := "postgres://db"; "PORT" := "8000" ]} = main ∅.
Proof.
  apply (main_reads_only_app_url
           {[ "DATABASE_URL" := "postgres://db"; "PORT" := "8000" ]} ∅).
  vm_compute. reflexivity.
Defined.

(** The fallback list ["http://localhost:3000"] results exactly when
    NEXT_PUBLIC_APP_URL is unset or holds that very string; every value the
    variable is set to, the empty string among them, is the one element of
    the list, unchanged. *)
Theorem default_origin_iff (environ : gmap string string) :
  (allowed_origins (main environ) = Some ["http://localhost:3000"]
   <-> environ !! "NEXT_PUBLIC_APP_URL" = None
       \/ environ !! "NEXT_PUBLIC_APP_URL" = Some "http://localhost:3000")
  /\ (forall v : string,
        environ !! "NEXT_PUBLIC_APP_URL" = Some v ->
        allowed_origins (main environ) = Some [v]).
Proof.
  rewrite allowed_origins_main. unfold getenv, APP_URL_VAR, DEFAULT_ORIGIN.
  destruct (environ !! "NEXT_PUBLIC_APP_URL") as [w|] eqn:E.
  - split.
    + split.
      * intros H. right. congruence.
      * intros [H|H]; congruence.
    + intros v Hv. congruence.
  - split.
    + split; [now left | reflexivity].
    + intros v Hv. discriminate.
Qed.

Lemma default_origin_iff_witness :
  allowed_origins (main {[ "NEXT_PUBLIC_APP_URL" := "" ]}) = Some [""]
  /\ allowed_origins (main {[ "NEXT_PUBLIC_APP_URL" := "http://localhost:3000" ]})
     = Some ["http://localhost:3000"].
Proof.
  split.
  - apply (proj2 (default_origin_iff {[ "NEXT_PUBLIC_APP_URL" := "" ]}) "").
    vm_compute. reflexivity.
  - apply (proj1 (default_origin_iff
                    {[ "NEXT_PUBLIC_APP_URL" := "http://localhost:3000" ]})).
    right. vm_compute. reflexivity.
Defined.

(** ** Replies do not depend on what was served before *)

Lemma serve_replies rqs : forall s,
  fst (serve rqs s) = map (fun rq => fst (handle rq s)) rqs.
Proof.
  induction rqs as [|rq rest IH]; intros s; [reflexivity|].
  cbn [serve map].
  pose proof (handle_state rq s) as Hh.
  destruct (handle rq s) as [rp s1]. cbn in Hh. subst s1.
  specialize (IH s).
  destruct (serve rest s) as [rps s2]. cbn in IH |- *. now rewrite IH.
Qed.

(** The replies to a sequence of requests are, one by one, the replies each
    request would get as the first request after startup: order and history
    play no part, for health checks and for every other request alike. *)
Theorem replies_independent_of_history (environ : gmap string string)
    (rqs : list request) :
  fst (serve rqs (main environ))
  = map (fun rq => fst (handle rq (main environ))) rqs.
Proof. apply serve_replies. Qed.
